(** * har_dump: a shallow embedding of [examples/har_dump.py]

    The script is an inline script of mitmproxy.  It keeps one
    module-level dictionary, [HAR], that [start] initialises, that
    [response] extends by one entry per flow, and that [done] writes to a
    file or to the log of the host.

    Python values are embedded as follows.
    - [str] is a byte string (the script is Python 2 code: it writes the
      result of [json.dumps] to a file opened in binary mode), embedded as
      [string];
    - [int]/[long] is [Z];
    - [float] is IEEE 754 binary64, embedded as [spec_float] with the
      operations of [SpecFloat] at precision 53 and maximal exponent 1024;
    - [dict] with string keys is [gmap string _], [list] is [list];
    - an exception is a value of [py_error], and a function that can raise
      returns a [result]. *)

From Stdlib Require Import ZArith List String Bool Lia.
From Stdlib Require Import Floats.SpecFloat.
From stdpp Require Import base option list gmap strings pretty.

Set Warnings "-register-all".

#[local] Open Scope Z_scope.

(** ** Python values and exceptions *)

(** The values that end up in the HAR document. *)
Inductive pyvalue : Type :=
| PStr (s : string)
| PInt (n : Z)
| PBool (b : bool)
| PList (l : list pyvalue)
| PDict (d : gmap string pyvalue).

(** The exceptions the script and the built-ins it calls can raise. *)
Inductive py_error : Type :=
| ValueError (msg : string)
| OverflowError (msg : string)
| AttributeError (attr : string)
| KeyError (key : string)
| IndexError (msg : string)
| TypeError (msg : string)
| IOError (path : string).

Inductive result (A : Type) : Type :=
| Ok (a : A)
| Raise (e : py_error).

Arguments Ok {A} a.
Arguments Raise {A} e.

Definition bind {A B} (r : result A) (k : A -> result B) : result B :=
  match r with
  | Ok a => k a
  | Raise e => Raise e
  end.

Notation "'let!' x ':=' r 'in' k" := (bind r (fun x => k))
  (at level 10, x pattern, r at level 100, k at level 200).

Definition is_ok {A} (r : result A) : bool :=
  match r with Ok _ => true | Raise _ => false end.

(** ** Floats *)

Module Float.

Definition prec : Z := 53.
Definition emax : Z := 1024.

Definition sub : spec_float -> spec_float -> spec_float := SFsub prec emax.
Definition mul : spec_float -> spec_float -> spec_float := SFmul prec emax.

(** [x == y] on floats. *)
Definition eqb : spec_float -> spec_float -> bool := SFeqb.

(** The conversion of an [int] operand in mixed arithmetic. *)
Definition of_int (n : Z) : spec_float := binary_normalize prec emax n 0 false.

(** The numerator and the denominator of the exact value of a float,
    [(-1)^s * m * 2^e]. *)
Definition numerator (s : bool) (m : positive) (e : Z) : Z :=
  cond_Zopp s (Z.pos m) * 2 ^ Z.max e 0.

Definition denominator (e : Z) : Z := 2 ^ Z.max (- e) 0.

(** [int(x)]: truncation toward zero; [int] of a NaN raises
    [ValueError], [int] of an infinity raises [OverflowError]. *)
Definition to_int (x : spec_float) : result Z :=
  match x with
  | S754_zero _ => Ok 0
  | S754_finite s m e => Ok (Z.quot (numerator s m e) (denominator e))
  | S754_infinity _ => Raise (OverflowError "cannot convert float infinity to integer")
  | S754_nan => Raise (ValueError "cannot convert float NaN to integer")
  end.

(** [bool(x)]. *)
Definition truth (x : spec_float) : bool :=
  match x with
  | S754_zero _ => false
  | _ => true
  end.

(** Neither a NaN nor an infinity. *)
Definition is_finite (x : spec_float) : bool :=
  match x with
  | S754_zero _ | S754_finite _ _ _ => true
  | S754_infinity _ | S754_nan => false
  end.

End Float.

(** ** Objects supplied by the host *)

(** A collection handed over by the host (headers, query parameters), as
    far as the script observes it. *)
Record pyobj : Type := {
  obj_fields : option (list (string * string));
    (* the attribute [fields], when the object has one *)
  obj_items : option (list (string * string));
    (* the result of [items()], when the object has that method *)
  obj_str : string;                 (* [str(obj)] *)
  obj_get : string -> option string; (* mapping lookup, [get] without its default *)
  obj_truth : bool                  (* [bool(obj)] *)
}.

(** The literal [{}]. *)
Definition empty_dict : pyobj :=
  {| obj_fields := None; obj_items := Some []; obj_str := "{}";
     obj_get := fun _ => None; obj_truth := false |}.

(** [a or b]. *)
Definition or_else (a b : pyobj) : pyobj := if obj_truth a then a else b.

(** [obj.get(key, default)]. *)
Definition get_default (obj : pyobj) (key default : string) : string :=
  match obj_get obj key with
  | Some v => v
  | None => default
  end.

(** The second component of a response cookie field: an object with the
    attributes [value] and [attrs]. *)
Module SetCookie.
Record t : Type := { value : string; attrs : gmap string string }.
End SetCookie.

(** A cookie as [format_cookies] iterates over it: name, value, attributes. *)
Definition cookie_triple : Type := string * string * gmap string string.

Module Request.
Record t : Type := {
  timestamp_start : spec_float;
  timestamp_end : spec_float;
  method : string;
  url : string;
  http_version : string;
  cookies_fields : list (string * string);
  headers : pyobj;
  query : pyobj;
  content : string
}.
End Request.

Module Response.
Record t : Type := {
  timestamp_start : spec_float;
  timestamp_end : spec_float;
  status_code : Z;
  reason : string;
  http_version : string;
  cookies_fields : list (string * SetCookie.t);
  headers : pyobj;
  content : string
}.
End Response.

Module Flow.
Record t : Type := { request : Request.t; response : Response.t }.
End Flow.

(** ** The state of the script and of its environment *)

Inductive io_event : Type :=
| EvLog (msg : string)            (* [mitmproxy.ctx.log(msg)] *)
| EvOpen (path : string)          (* [open(path, "wb")] *)
| EvWrite (path data : string)    (* [f.write(data)] *)
| EvClose (path : string).        (* leaving the [with] block *)

Record world : Type := {
  sys_argv : list string;          (* [sys.argv] *)
  HAR : gmap string pyvalue;       (* the module-level dictionary *)
  files : gmap string string;      (* the files on disk and their contents *)
  unwritable : gset string;        (* paths that cannot be opened for writing *)
  events : list io_event           (* what the script did to its environment *)
}.

Definition set_HAR (h : gmap string pyvalue) (w : world) : world :=
  {| sys_argv := sys_argv w; HAR := h; files := files w;
     unwritable := unwritable w; events := events w |}.

Definition set_file (path data : string) (w : world) : world :=
  {| sys_argv := sys_argv w; HAR := HAR w; files := <[path := data]> (files w);
     unwritable := unwritable w; events := events w |}.

Definition emit (ev : io_event) (w : world) : world :=
  {| sys_argv := sys_argv w; HAR := HAR w; files := files w;
     unwritable := unwritable w; events := events w ++ [ev] |}.

(** The events a hook adds to those of the world it starts from. *)
Definition new_events (w w' : world) : list io_event :=
  drop (length (events w)) (events w').

(** A hook runs on the world and returns normally or raises. *)
Definition hook : Type := world -> result unit * world.

(** ** Library functions the script calls

    None of these is code of the script.  [group_cookies] and
    [get_expiration_ts] belong to [netlib.http.cookies], [MITMPROXY] to
    [netlib.version]; the others to [datetime], [pytz], [json] and
    [pprint]. *)
Class Library : Type := {
  MITMPROXY : string;
  datetime : Type;
  utcfromtimestamp : spec_float -> result datetime;
  fromtimestamp : spec_float -> result datetime;
  replace_tzinfo_UTC : datetime -> datetime;
    (* [dt.replace(tzinfo=pytz.timezone("UTC"))] *)
  isoformat : datetime -> string;
  group_cookies : list (string * string) -> list cookie_triple;
  get_expiration_ts : gmap string string -> option spec_float;
  json_dumps : pyvalue -> Z -> result string;
    (* [json.dumps(v, indent=n)] *)
  pformat : pyvalue -> string
}.

(** The double quote character. *)
Definition dquote : string :=
  String (Ascii.Ascii false true false false false true false false) EmptyString.

Definition usage : string :=
  "Usage: -s " +:+ dquote +:+ "har_dump.py filename" +:+ dquote +:+ " "
  +:+ "(- will output to stdout, filenames ending with .zhar "
  +:+ "will result in compressed har)".

(** What the name [cookies] can be bound to where line 152 looks up
    [cookies.get_expiration_ts]: the module imported at the top of the
    file, or an iterable of cookie triples. *)
Inductive cookies_binding : Type :=
| Module_cookies
| Iterable (triples : list cookie_triple).

Section Script.

Context `{Library}.

(** *** [start] *)

(** Lines 33 to 41: the value [start] binds to the key ["log"]. *)
Definition initial_log : pyvalue :=
  PDict {[
    "version" := PStr "1.2";
    "creator" := PDict {[
      "name" := PStr "mitmproxy har_dump";
      "version" := PStr "0.1";
      "comment" := PStr ("mitmproxy version " +:+ MITMPROXY) ]};
    "entries" := PList [] ]}.

Definition start : hook := fun w =>
  if negb (Nat.eqb (length (sys_argv w)) 2) then
    (Raise (ValueError usage), w)
  else
    (Ok tt, set_HAR (<["log" := initial_log]> (HAR w)) w).

(** *** [format_datetime] *)

Definition format_datetime (dt : datetime) : string :=
  isoformat (replace_tzinfo_UTC dt).

(** *** [format_cookies] *)

(** [obj.get_expiration_ts]: a module attribute, which neither a list
    nor a generator has. *)
Definition getattr_get_expiration_ts (obj : cookies_binding)
  : result (gmap string string -> option spec_float) :=
  match obj with
  | Module_cookies => Ok get_expiration_ts
  | Iterable _ => Raise (AttributeError "get_expiration_ts")
  end.

(** [key in attrs]. *)
Definition has_key (attrs : gmap string string) (key : string) : bool :=
  bool_decide (is_Some (attrs !! key)).

(** Lines 137 to 149: the record of one cookie before its expiration. *)
Definition cookie_har_base (name value : string) (attrs : gmap string string)
  : gmap string pyvalue :=
  let cookie_har := {[ "name" := PStr name; "value" := PStr value ]} in
  let cookie_har :=
    foldl (fun acc key =>
             match attrs !! key with
             | Some v => <[key := PStr v]> acc
             | None => acc
             end)
          cookie_har ["path"; "domain"; "comment"] in
  foldl (fun acc key => <[key := PBool (has_key attrs key)]> acc)
        cookie_har ["httpOnly"; "secure"].

(** The body of the loop, with [cookies] bound to [binding]. *)
Definition format_cookie (binding : cookies_binding) (c : cookie_triple)
  : result pyvalue :=
  let '(name, value, attrs) := c in
  let cookie_har := cookie_har_base name value attrs in
  let! get_ts := getattr_get_expiration_ts binding in
  match get_ts attrs with
  | Some expire_ts =>
      if Float.truth expire_ts then
        let! dt := fromtimestamp expire_ts in
        Ok (PDict (<["expires" := PStr (format_datetime dt)]> cookie_har))
      else Ok (PDict cookie_har)
  | None => Ok (PDict cookie_har)
  end.

Fixpoint format_cookies_loop (binding : cookies_binding)
    (rest : list cookie_triple) (cookie_list : list pyvalue)
  : result (list pyvalue) :=
  match rest with
  | [] => Ok cookie_list
  | c :: rest' =>
      let! cookie_har := format_cookie binding c in
      format_cookies_loop binding rest' (cookie_list ++ [cookie_har])
  end.

(** Inside the function the parameter [cookies] hides the module
    [cookies]: the lookup of line 152 is made on the argument. *)
Definition format_cookies (cookies : list cookie_triple) : result pyvalue :=
  let! cookie_list := format_cookies_loop (Iterable cookies) cookies [] in
  Ok (PList cookie_list).

(** The cookie formatter as the specification describes it: the
    expiration is asked of the module [netlib.http.cookies]. *)
Definition format_cookies_spec (cookies : list cookie_triple) : result pyvalue :=
  let! cookie_list := format_cookies_loop Module_cookies cookies [] in
  Ok (PList cookie_list).

Definition format_request_cookies (fields : list (string * string))
  : result pyvalue :=
  format_cookies (group_cookies fields).

Definition format_response_cookies (fields : list (string * SetCookie.t))
  : result pyvalue :=
  format_cookies
    (map (fun c => (fst c, SetCookie.value (snd c), SetCookie.attrs (snd c)))
         fields).

(** *** [name_value] *)

(** Lines 174 to 178: the items the converter iterates over. *)
Definition name_value_items (obj : pyobj) : list (string * string) :=
  match obj_fields obj with
  | Some fields => fields
  | None =>
      match obj_items obj with
      | Some items => items
      | None => []
      end
  end.

Definition name_value_record (kv : string * string) : pyvalue :=
  PDict {[ "name" := PStr (fst kv); "value" := PStr (snd kv) ]}.

Definition name_value (obj : pyobj) : pyvalue :=
  let items := name_value_items obj in
  match items with
  | _ :: _ => PList (map name_value_record items)
  | [] => PStr ""
  end.

(** *** [response] *)

(** Lines 60 to 64. *)
Definition timings_raw (flow : Flow.t) : gmap string spec_float :=
  let request := Flow.request flow in
  let response := Flow.response flow in
  {[ "send" := Float.sub (Request.timestamp_end request)
                         (Request.timestamp_start request);
     "receive" := Float.sub (Response.timestamp_end response)
                            (Response.timestamp_start response);
     "wait" := Float.sub (Response.timestamp_start response)
                         (Request.timestamp_end request) ]}.

(** [int(1000 * v)]. *)
Definition to_ms (v : spec_float) : result Z :=
  Float.to_int (Float.mul (Float.of_int 1000) v).

(** The list comprehension of line 67, over the items of a dictionary. *)
Fixpoint to_ms_items (items : list (string * spec_float))
  : result (list (string * Z)) :=
  match items with
  | [] => Ok []
  | (k, v) :: items' =>
      let! ms := to_ms v in
      let! rest := to_ms_items items' in
      Ok ((k, ms) :: rest)
  end.

(** Line 67. *)
Definition timings_of (flow : Flow.t) : result (gmap string Z) :=
  let! pairs := to_ms_items (map_to_list (timings_raw flow)) in
  Ok (list_to_map pairs).

(** The built-in [sum]. *)
Definition sum (l : list Z) : Z := foldl Z.add 0 l.

(** Line 71. *)
Definition full_time_of (timings : gmap string Z) : Z :=
  sum (List.filter (fun v => -1 <? v) (map snd (map_to_list timings))).

(** [HAR["log"]["entries"]], whose [append] is then called: the
    dictionary under ["log"] and the list under ["entries"]. *)
Definition log_entries (har : gmap string pyvalue)
  : result (gmap string pyvalue * list pyvalue) :=
  match har !! "log" with
  | None => Raise (KeyError "log")
  | Some (PDict log) =>
      match log !! "entries" with
      | None => Raise (KeyError "entries")
      | Some (PList entries) => Ok (log, entries)
      | Some _ => Raise (AttributeError "append")
      end
  | Some _ => Raise (TypeError "indices must be integers")
  end.

(** [len] of a byte string. *)
Definition len (s : string) : Z := Z.of_nat (String.length s).

(** Lines 80 to 110: the argument of [append], from the values computed
    before it and the two cookie lists. *)
Definition entry_of (flow : Flow.t) (started_date_time : string)
    (full_time : Z) (timings : gmap string Z)
    (response_body_size response_body_compression : Z)
    (request_cookies response_cookies : pyvalue) : pyvalue :=
  let request := Flow.request flow in
  let response := Flow.response flow in
  PDict {[
    "startedDateTime" := PStr started_date_time;
    "time" := PInt full_time;
    "request" := PDict {[
      "method" := PStr (Request.method request);
      "url" := PStr (Request.url request);
      "httpVersion" := PStr (Request.http_version request);
      "cookies" := request_cookies;
      "headers" := name_value (Request.headers request);
      "queryString" :=
        name_value (or_else (Request.query request) empty_dict);
      "headersSize" := PInt (len (obj_str (Request.headers request)));
      "bodySize" := PInt (len (Request.content request)) ]};
    "response" := PDict {[
      "status" := PInt (Response.status_code response);
      "statusText" := PStr (Response.reason response);
      "httpVersion" := PStr (Response.http_version response);
      "cookies" := response_cookies;
      "headers" := name_value (Response.headers response);
      "content" := PDict {[
        "size" := PInt response_body_size;
        "compression" := PInt response_body_compression;
        "mimeType" :=
          PStr (get_default (Response.headers response) "Content-Type" "") ]};
      "redirectURL" :=
        PStr (get_default (Response.headers response) "Location" "");
      "headersSize" := PInt (len (obj_str (Response.headers response)));
      "bodySize" := PInt response_body_size ]};
    "cache" := PDict ∅;
    "timings" := PDict (PInt <$> timings) ]}.

(** Lines 60 to 110 up to the call of [append]: the dictionary under
    ["log"], the list the entry is appended to, and the entry.  The
    method [HAR["log"]["entries"].append] is looked up before its
    argument is evaluated. *)
Definition response_entry (flow : Flow.t) (har : gmap string pyvalue)
  : result (gmap string pyvalue * list pyvalue * pyvalue) :=
  let request := Flow.request flow in
  let response := Flow.response flow in
  let! timings := timings_of flow in
  let full_time := full_time_of timings in
  let! dt := utcfromtimestamp (Request.timestamp_start request) in
  let started_date_time := format_datetime dt in
  let response_body_size := len (Response.content response) in
  let response_body_decoded_size := len (Response.content response) in
  let response_body_compression :=
    response_body_decoded_size - response_body_size in
  let! (log, entries) := log_entries har in
  let! request_cookies :=
    format_request_cookies (Request.cookies_fields request) in
  let! response_cookies :=
    format_response_cookies (Response.cookies_fields response) in
  Ok (log, entries,
      entry_of flow started_date_time full_time timings
        response_body_size response_body_compression
        request_cookies response_cookies).

Definition response (flow : Flow.t) : hook := fun w =>
  match response_entry flow (HAR w) with
  | Raise e => (Raise e, w)
  | Ok (log, entries, entry) =>
      (Ok tt,
       set_HAR
         (<["log" := PDict (<["entries" := PList (entries ++ [entry])]> log)]>
            (HAR w)) w)
  end.

(** The world after the host has called [response] on each flow of a list
    in turn, whether a call returns or raises. *)
Fixpoint responses (flows : list Flow.t) (w : world) : world :=
  match flows with
  | [] => w
  | flow :: flows' => responses flows' (snd (response flow w))
  end.

(** The entry [response] appends for a flow, if it appends one. *)
Definition appended_entry (flow : Flow.t) (w : world) : option pyvalue :=
  match response_entry flow (HAR w) with
  | Ok (_, _, entry) => Some entry
  | Raise _ => None
  end.

(** *** [done] *)

Definition done : hook := fun w =>
  match sys_argv w !! 1%nat with
  | None => (Raise (IndexError "list index out of range"), w)
  | Some dump_file =>
      if String.eqb dump_file "-" then
        (Ok tt, emit (EvLog (pformat (PDict (HAR w)))) w)
      else if bool_decide (dump_file ∈ unwritable w) then
        (Raise (IOError dump_file), w)
      else
        let w := emit (EvOpen dump_file) (set_file dump_file "" w) in
        match json_dumps (PDict (HAR w)) 2 with
        | Raise e => (Raise e, emit (EvClose dump_file) w)
        | Ok data =>
            (Ok tt,
             emit (EvClose dump_file)
               (emit (EvWrite dump_file data) (set_file dump_file data w)))
        end
  end.

End Script.

(** ** Concrete inputs

    Stand-ins for the library functions, and flows and worlds on which the
    hooks are run. *)
Module Sample.

Definition shallow_repr (v : pyvalue) : string :=
  match v with
  | PStr s => s
  | PInt n => pretty n
  | PBool true => "True"
  | PBool false => "False"
  | PList _ => "[...]"
  | PDict _ => "{...}"
  end.

Definition library : Library := {|
  MITMPROXY := "0.18";
  datetime := Z;
  utcfromtimestamp := Float.to_int;
  fromtimestamp := Float.to_int;
  replace_tzinfo_UTC := fun dt => dt;
  isoformat := fun dt => pretty dt +:+ "+00:00";
  group_cookies := map (fun kv => (fst kv, snd kv, ∅));
  get_expiration_ts := fun attrs => None;
  json_dumps := fun v indent => Ok (shallow_repr v);
  pformat := shallow_repr
|}.

Definition headers : pyobj := {|
  obj_fields := Some [("Host", "example.org"); ("Accept", "*/*")];
  obj_items := Some [("Accept", "*/*"); ("Host", "example.org")];
  obj_str := "Host: example.org" +:+ "Accept: */*";
  obj_get := fun _ => None;
  obj_truth := true
|}.

Definition no_query : pyobj := {|
  obj_fields := Some [];
  obj_items := Some [];
  obj_str := "";
  obj_get := fun _ => None;
  obj_truth := false
|}.

(** A plain dictionary with one item: it has [items] and no [fields]. *)
Definition query_dict : pyobj := {|
  obj_fields := None;
  obj_items := Some [("q", "rocq")];
  obj_str := "{'q': 'rocq'}";
  obj_get := fun key => if String.eqb key "q" then Some "rocq" else None;
  obj_truth := true
|}.

(** An object with neither [fields] nor [items]. *)
Definition opaque : pyobj := {|
  obj_fields := None;
  obj_items := None;
  obj_str := "<object>";
  obj_get := fun _ => None;
  obj_truth := true
|}.

(** 746203272.0, 746203272.25 and 746203273.5 seconds. *)
Definition t0 : spec_float := Float.of_int 746203272.
Definition t1 : spec_float := binary_normalize Float.prec Float.emax 2984813089 (-2) false.
Definition t2 : spec_float := binary_normalize Float.prec Float.emax 1492406547 (-1) false.

Definition request : Request.t := {|
  Request.timestamp_start := t0;
  Request.timestamp_end := t1;
  Request.method := "GET";
  Request.url := "http://example.org/";
  Request.http_version := "HTTP/1.1";
  Request.cookies_fields := [];
  Request.headers := headers;
  Request.query := no_query;
  Request.content := ""
|}.

(** The response starts when the request ends. *)
Definition response : Response.t := {|
  Response.timestamp_start := t1;
  Response.timestamp_end := t2;
  Response.status_code := 200;
  Response.reason := "OK";
  Response.http_version := "HTTP/1.1";
  Response.cookies_fields := [];
  Response.headers := headers;
  Response.content := "message"
|}.

Definition flow : Flow.t :=
  {| Flow.request := request; Flow.response := response |}.

(** A cookie with the attributes [path] and [secure] only. *)
Definition session_attrs : gmap string string :=
  {[ "path" := "/"; "secure" := "" ]}.

Definition session_cookie : cookie_triple := ("sid", "abc", session_attrs).

(** The same flow, whose response sets that cookie. *)
Definition flow_with_cookie : Flow.t := {|
  Flow.request := request;
  Flow.response := {|
    Response.timestamp_start := t1;
    Response.timestamp_end := t2;
    Response.status_code := 200;
    Response.reason := "OK";
    Response.http_version := "HTTP/1.1";
    Response.cookies_fields :=
      [("sid", {| SetCookie.value := "abc"; SetCookie.attrs := session_attrs |})];
    Response.headers := headers;
    Response.content := "message"
  |}
|}.

(** The world when the script is loaded with the given arguments. *)
Definition loaded (argv : list string) : world := {|
  sys_argv := argv;
  HAR := ∅;
  files := {[ "old.har" := "stale" ]};
  unwritable := ∅;
  events := []
|}.

(** The world after [start] with one destination. *)
Definition started (dump_file : string) : world :=
  snd (start (H := library) (loaded ["har_dump.py"; dump_file])).

(** The flow with a request whose start time is a NaN. *)
Definition flow_nan : Flow.t := {|
  Flow.request := {|
    Request.timestamp_start := S754_nan;
    Request.timestamp_end := t1;
    Request.method := "GET";
    Request.url := "http://example.org/";
    Request.http_version := "HTTP/1.1";
    Request.cookies_fields := [];
    Request.headers := headers;
    Request.query := no_query;
    Request.content := ""
  |};
  Flow.response := response
|}.

(** The library with a [json.dumps] that raises. *)
Definition library_dumps_raises : Library := {|
  MITMPROXY := "0.18";
  datetime := Z;
  utcfromtimestamp := Float.to_int;
  fromtimestamp := Float.to_int;
  replace_tzinfo_UTC := fun dt => dt;
  isoformat := fun dt => pretty dt +:+ "+00:00";
  group_cookies := map (fun kv => (fst kv, snd kv, ∅));
  get_expiration_ts := fun attrs => None;
  json_dumps := fun v indent => Raise (TypeError "is not JSON serializable");
  pformat := shallow_repr
|}.

End Sample.

(** ** Properties of the float operations *)

Section FloatProperties.

Lemma of_int_1000 :
  Float.of_int 1000 = S754_finite false 8796093022208000 (-43).
Proof. reflexivity. Qed.

Lemma denominator_pos (e : Z) : 0 < Float.denominator e.
Proof. unfold Float.denominator. apply Z.pow_pos_nonneg; lia. Qed.

(** [int] truncates toward zero: the result has the sign of the float
    and is the integer part of its absolute value. *)
Lemma to_int_truncates (s : bool) (m : positive) (e : Z) :
  exists z,
    Float.to_int (S754_finite s m e) = Ok z /\
    0 <= z * Float.numerator s m e /\
    Z.abs z * Float.denominator e <= Z.abs (Float.numerator s m e)
      < (Z.abs z + 1) * Float.denominator e.
Proof.
  pose proof (denominator_pos e) as Hd.
  set (n := Float.numerator s m e). set (d := Float.denominator e) in *.
  exists (Z.quot n d). split; [reflexivity|].
  pose proof (Z.quot_rem' n d) as Hqr.
  destruct (Z.le_gt_cases 0 n) as [Hn|Hn].
  - pose proof (Z.rem_bound_pos n d Hn Hd).
    pose proof (Z.quot_pos n d Hn Hd). nia.
  - assert (Hq : Z.quot n d = - Z.quot (- n) d)
      by (rewrite <- (Z.quot_opp_l (- n) d) by lia; f_equal; lia).
    pose proof (Z.quot_rem' (- n) d) as Hqr'.
    pose proof (Z.rem_bound_pos (- n) d ltac:(lia) Hd).
    pose proof (Z.quot_pos (- n) d ltac:(lia) Hd).
    rewrite Hq. nia.
Qed.

(** [x == y] holds of two zeros, of two infinities of the same sign and
    of two identical finite floats. *)
Lemma eqb_true (x y : spec_float) :
  Float.eqb x y = true ->
  (exists s1 s2, x = S754_zero s1 /\ y = S754_zero s2) \/
  (exists s, x = S754_infinity s /\ y = S754_infinity s) \/
  (exists s m e, x = S754_finite s m e /\ y = S754_finite s m e).
Proof.
  unfold Float.eqb, SFeqb.
  destruct x as [s1|s1| |s1 m1 e1], y as [s2|s2| |s2 m2 e2]; simpl;
    try discriminate; try (destruct s1; discriminate);
    try (destruct s2; discriminate).
  - intros _. left. eauto.
  - destruct s1, s2; try discriminate; intros _; right; left; eauto.
  - intros Heq. right. right. exists s1, m1, e1. split; [reflexivity|].
    destruct s1, s2; try discriminate;
      destruct (Z.compare_spec e1 e2) as [->| |]; try discriminate;
      fold (Pos.compare m1 m2) in Heq;
      destruct (Pos.compare_spec m1 m2) as [->| |]; try discriminate;
      reflexivity.
Qed.

(** The difference of two equal floats is a zero, or a NaN when they
    are infinite. *)
Lemma sub_eqb (x y : spec_float) :
  Float.eqb x y = true ->
  Float.sub x y = S754_nan \/ exists s, Float.sub x y = S754_zero s.
Proof.
  intros Heq.
  destruct (eqb_true x y Heq) as [(s1 & s2 & -> & ->)|[(s & -> & ->)|(s & m & e & -> & ->)]].
  - right. destruct s1, s2; simpl; eauto.
  - left. destruct s; reflexivity.
  - right. exists false. unfold Float.sub, SFsub.
    rewrite Z.sub_diag. reflexivity.
Qed.

End FloatProperties.

(** ** Properties of the script *)

Section Properties.

Context `{Library}.

(** *** The name/value converter *)

(** The conversion of a collection of pairs, lines 180 to 183. *)
Lemma name_value_of_fields (obj : pyobj) (fields : list (string * string)) :
  obj_fields obj = Some fields ->
  name_value obj =
  match fields with
  | [] => PStr ""
  | _ :: _ =>
      PList (map (fun kv => PDict {[ "name" := PStr (fst kv);
                                     "value" := PStr (snd kv) ]}) fields)
  end.
Proof.
  intros Hf. unfold name_value, name_value_items. rewrite Hf.
  destruct fields; reflexivity.
Qed.

Lemma name_value_of_items (obj : pyobj) (items : list (string * string)) :
  obj_fields obj = None ->
  obj_items obj = Some items ->
  name_value obj =
  match items with
  | [] => PStr ""
  | _ :: _ =>
      PList (map (fun kv => PDict {[ "name" := PStr (fst kv);
                                     "value" := PStr (snd kv) ]}) items)
  end.
Proof.
  intros Hf Hi. unfold name_value, name_value_items. rewrite Hf, Hi.
  destruct items; reflexivity.
Qed.

Lemma name_value_of_neither (obj : pyobj) :
  obj_fields obj = None -> obj_items obj = None -> name_value obj = PStr "".
Proof.
  intros Hf Hi. unfold name_value, name_value_items. rewrite Hf, Hi. reflexivity.
Qed.

(** C2.  The items [name_value] converts are those of the attribute
    [fields] of its input, or, for an input without that attribute, those
    its method [items] returns.  When there is at least one item, the
    result is the list of the records [{name, value}] of the items, in
    their order.  When there is none (an empty [fields], an empty
    [items()], or an input with neither), the result is the empty string;
    in no case is it the empty list. *)
Theorem name_value_records_or_empty_string (obj : pyobj) :
  (forall fields,
     obj_fields obj = Some fields -> fields <> [] ->
     name_value obj =
     PList (map (fun kv => PDict {[ "name" := PStr (fst kv);
                                    "value" := PStr (snd kv) ]}) fields)) /\
  (forall items,
     obj_fields obj = None -> obj_items obj = Some items -> items <> [] ->
     name_value obj =
     PList (map (fun kv => PDict {[ "name" := PStr (fst kv);
                                    "value" := PStr (snd kv) ]}) items)) /\
  (obj_fields obj = Some [] -> name_value obj = PStr "") /\
  (obj_fields obj = None -> obj_items obj = Some [] -> name_value obj = PStr "") /\
  (obj_fields obj = None -> obj_items obj = None -> name_value obj = PStr "") /\
  name_value obj <> PList [].
Proof.
  split; [|split; [|split; [|split; [|split]]]].
  - intros fields Hf Hne. rewrite (name_value_of_fields obj fields Hf).
    destruct fields; [congruence|reflexivity].
  - intros items Hf Hi Hne. rewrite (name_value_of_items obj items Hf Hi).
    destruct items; [congruence|reflexivity].
  - intros Hf. exact (name_value_of_fields obj [] Hf).
  - intros Hf Hi. exact (name_value_of_items obj [] Hf Hi).
  - apply name_value_of_neither.
  - destruct (obj_fields obj) as [fields|] eqn:Hf.
    + rewrite (name_value_of_fields obj fields Hf).
      destruct fields; discriminate.
    + destruct (obj_items obj) as [items|] eqn:Hi.
      * rewrite (name_value_of_items obj items Hf Hi).
        destruct items; discriminate.
      * rewrite (name_value_of_neither obj Hf Hi). discriminate.
Qed.

(** C10.  [name_value] looks for the attribute [fields] before the
    method [items].  For an object with both, the result is the conversion
    of [fields], records in order or the empty string when [fields] is
    empty, whatever [items] returns.  Only for an object without [fields]
    is [items] called, and the result is the conversion of what it
    returns.  For an object with neither, the result is the empty
    string. *)
Theorem name_value_fields_before_items (obj : pyobj) :
  (forall fields items,
     obj_fields obj = Some fields -> obj_items obj = Some items ->
     name_value obj =
     match fields with
     | [] => PStr ""
     | _ :: _ =>
         PList (map (fun kv => PDict {[ "name" := PStr (fst kv);
                                        "value" := PStr (snd kv) ]}) fields)
     end) /\
  (forall items,
     obj_fields obj = None -> obj_items obj = Some items ->
     name_value obj =
     match items with
     | [] => PStr ""
     | _ :: _ =>
         PList (map (fun kv => PDict {[ "name" := PStr (fst kv);
                                        "value" := PStr (snd kv) ]}) items)
     end) /\
  (obj_fields obj = None -> obj_items obj = None -> name_value obj = PStr "").
Proof.
  split; [|split].
  - intros fields items Hf _. exact (name_value_of_fields obj fields Hf).
  - intros items Hf Hi. exact (name_value_of_items obj items Hf Hi).
  - apply name_value_of_neither.
Qed.

(** *** [start] *)


(** *** [done] *)

(** C6.  With the destination ["-"], [done] returns after one call of
    the log of the host, with the structural dump of the document, and
    the files are as before: no file is opened or written.  With another
    destination, which can be opened for writing, and a document that
    [json.dumps] serializes with indent 2, [done] opens the file, writes
    the serialization in one call and closes the file, which then holds
    the serialization and nothing of its former content; the other files
    and the document are as before. *)
Theorem done_logs_or_writes (w : world) (dump_file : string) :
  sys_argv w !! 1%nat = Some dump_file ->
  (dump_file = "-" ->
   fst (done w) = Ok tt /\
   new_events w (snd (done w)) = [EvLog (pformat (PDict (HAR w)))] /\
   files (snd (done w)) = files w /\
   HAR (snd (done w)) = HAR w) /\
  (dump_file <> "-" ->
   dump_file ∉ unwritable w ->
   forall data,
     json_dumps (PDict (HAR w)) 2 = Ok data ->
     fst (done w) = Ok tt /\
     new_events w (snd (done w)) =
       [EvOpen dump_file; EvWrite dump_file data; EvClose dump_file] /\
     files (snd (done w)) !! dump_file = Some data /\
     (forall path, path <> dump_file ->
        files (snd (done w)) !! path = files w !! path) /\
     HAR (snd (done w)) = HAR w).
Proof.
  intros Hargv. unfold done, new_events. rewrite Hargv. split.
  - intros ->. simpl. rewrite drop_app_length. auto.
  - intros Hne Hw data Hdumps.
    apply String.eqb_neq in Hne. rewrite Hne.
    rewrite bool_decide_eq_false_2 by exact Hw.
    simpl. rewrite Hdumps. simpl.
    rewrite <- !app_assoc, drop_app_length. simpl.
    split; [reflexivity|]. split; [reflexivity|].
    split; [apply lookup_insert_eq|]. split; [|reflexivity].
    intros path Hpath. rewrite !lookup_insert_ne by congruence. reflexivity.
Qed.

(** *** The cookie formatter *)

Lemma format_cookie_iterable (triples : list cookie_triple) (c : cookie_triple) :
  format_cookie (Iterable triples) c = Raise (AttributeError "get_expiration_ts").
Proof. destruct c as [[name value] attrs]. reflexivity. Qed.

Lemma format_cookies_cons (c : cookie_triple) (cookies : list cookie_triple) :
  format_cookies (c :: cookies) = Raise (AttributeError "get_expiration_ts").
Proof.
  unfold format_cookies. simpl. rewrite format_cookie_iterable. reflexivity.
Qed.

Lemma format_cookies_nil : format_cookies [] = Ok (PList []).
Proof. reflexivity. Qed.

Lemma format_cookies_ok (cookies : list cookie_triple) (v : pyvalue) :
  format_cookies cookies = Ok v -> cookies = [] /\ v = PList [].
Proof.
  destruct cookies as [|c cookies].
  - rewrite format_cookies_nil. intros [= <-]. auto.
  - rewrite format_cookies_cons. discriminate.
Qed.

(** *** [response] *)

Lemma map_to_list_timings {A} (send receive wait : A) :
  map_to_list ({[ "send" := send; "receive" := receive; "wait" := wait ]}
                 : gmap string A)
  = [("wait", wait); ("send", send); ("receive", receive)].
Proof. reflexivity. Qed.

Lemma timings_of_ok (flow : Flow.t) (timings : gmap string Z) :
  timings_of flow = Ok timings ->
  exists send receive wait,
    to_ms (Float.sub (Request.timestamp_end (Flow.request flow))
                     (Request.timestamp_start (Flow.request flow))) = Ok send /\
    to_ms (Float.sub (Response.timestamp_end (Flow.response flow))
                     (Response.timestamp_start (Flow.response flow))) = Ok receive /\
    to_ms (Float.sub (Response.timestamp_start (Flow.response flow))
                     (Request.timestamp_end (Flow.request flow))) = Ok wait /\
    timings = {[ "send" := send; "receive" := receive; "wait" := wait ]}.
Proof.
  unfold timings_of, timings_raw. rewrite map_to_list_timings. simpl.
  destruct (to_ms (Float.sub (Response.timestamp_start _) _)) as [wait|]; [|discriminate].
  destruct (to_ms (Float.sub (Request.timestamp_end _) _)) as [send|]; [|discriminate].
  destruct (to_ms (Float.sub (Response.timestamp_end _) _)) as [receive|]; [|discriminate].
  simpl. intros [= <-]. exists send, receive, wait. repeat split; reflexivity.
Qed.

(** The total counts the timings that are not negative. *)
Lemma full_time_of_timings (send receive wait : Z) :
  full_time_of {[ "send" := send; "receive" := receive; "wait" := wait ]}
  = sum (List.filter (fun v => 0 <=? v) [send; receive; wait]).
Proof.
  unfold full_time_of. rewrite map_to_list_timings. unfold sum. simpl.
  destruct (Z.ltb_spec (-1) wait), (Z.ltb_spec (-1) send),
    (Z.ltb_spec (-1) receive), (Z.leb_spec 0 wait), (Z.leb_spec 0 send),
    (Z.leb_spec 0 receive); simpl; lia.
Qed.

(** The timing of two equal timestamps, when it is computed, is 0. *)
Lemma to_ms_sub_eqb (x y : spec_float) (ms : Z) :
  Float.eqb x y = true -> to_ms (Float.sub x y) = Ok ms -> ms = 0.
Proof.
  intros Heq. unfold to_ms. rewrite of_int_1000.
  destruct (sub_eqb x y Heq) as [->|[s ->]]; simpl.
  - discriminate.
  - intros [= <-]. reflexivity.
Qed.

(** What [response] does when it returns: every step before [append]
    succeeded, there is no cookie on either side, and the world differs
    only by the entry appended to [HAR["log"]["entries"]]. *)
Lemma response_ok (flow : Flow.t) (w w' : world) :
  response flow w = (Ok tt, w') ->
  exists timings dt log entries,
    timings_of flow = Ok timings /\
    utcfromtimestamp (Request.timestamp_start (Flow.request flow)) = Ok dt /\
    log_entries (HAR w) = Ok (log, entries) /\
    group_cookies (Request.cookies_fields (Flow.request flow)) = [] /\
    Response.cookies_fields (Flow.response flow) = [] /\
    w' = set_HAR
           (<["log" := PDict (<["entries" :=
                PList (entries ++
                  [entry_of flow (format_datetime dt) (full_time_of timings)
                     timings (len (Response.content (Flow.response flow))) 0
                     (PList []) (PList [])])]> log)]> (HAR w)) w.
Proof.
  unfold response, response_entry.
  destruct (timings_of flow) as [timings|]; simpl; [|discriminate].
  destruct (utcfromtimestamp _) as [dt|]; simpl; [|discriminate].
  destruct (log_entries (HAR w)) as [[log entries]|]; simpl; [|discriminate].
  destruct (format_request_cookies _) as [rqc|] eqn:Hrq; simpl; [|discriminate].
  destruct (format_response_cookies _) as [rsc|] eqn:Hrs; simpl; [|discriminate].
  apply format_cookies_ok in Hrq as [Hrq ->].
  apply format_cookies_ok in Hrs as [Hrs ->].
  apply map_eq_nil in Hrs.
  rewrite Z.sub_diag. intros [= <-].
  exists timings, dt, log, entries. repeat split; assumption.
Qed.

Lemma log_entries_append (har log : gmap string pyvalue) (entries : list pyvalue) :
  log_entries (<["log" := PDict (<["entries" := PList entries]> log)]> har)
  = Ok (<["entries" := PList entries]> log, entries).
Proof. unfold log_entries. rewrite !lookup_insert_eq. reflexivity. Qed.

(** The sum of three timings none of which is negative. *)
Lemma sum_nonnegative (send receive wait : Z) :
  0 <= send -> 0 <= receive -> 0 <= wait ->
  sum (List.filter (fun v => 0 <=? v) [send; receive; wait])
  = send + receive + wait.
Proof.
  intros Hs Hr Hw. simpl.
  rewrite (proj2 (Z.leb_le 0 send) Hs), (proj2 (Z.leb_le 0 receive) Hr),
    (proj2 (Z.leb_le 0 wait) Hw).
  reflexivity.
Qed.

(** C1.  When [response] returns for a flow, the entry it has appended to
    the entries that were there holds under ["timings"] the three values
    [send], [receive] and [wait], where [send] is [int(1000 *
    (request.timestamp_end - request.timestamp_start))], [receive] is
    [int(1000 * (response.timestamp_end - response.timestamp_start))] and
    [wait] is [int(1000 * (response.timestamp_start -
    request.timestamp_end))], [int] truncating toward zero; under ["time"]
    it holds the sum of those of the three that are not negative, so that
    a timing of -1 is not counted and the total is [send + receive + wait]
    when none is negative; and [wait] is 0 when
    [response.timestamp_start == request.timestamp_end]. *)
Theorem response_timings (flow : Flow.t) (w w' : world) :
  response flow w = (Ok tt, w') ->
  exists send receive wait log log' entries entry,
    to_ms (Float.sub (Request.timestamp_end (Flow.request flow))
                     (Request.timestamp_start (Flow.request flow))) = Ok send /\
    to_ms (Float.sub (Response.timestamp_end (Flow.response flow))
                     (Response.timestamp_start (Flow.response flow))) = Ok receive /\
    to_ms (Float.sub (Response.timestamp_start (Flow.response flow))
                     (Request.timestamp_end (Flow.request flow))) = Ok wait /\
    log_entries (HAR w) = Ok (log, entries) /\
    log_entries (HAR w') = Ok (log', entries ++ [PDict entry]) /\
    entry !! "timings" =
      Some (PDict {[ "send" := PInt send; "receive" := PInt receive;
                     "wait" := PInt wait ]}) /\
    entry !! "time" =
      Some (PInt (sum (List.filter (fun v => 0 <=? v) [send; receive; wait]))) /\
    (0 <= send -> 0 <= receive -> 0 <= wait ->
     entry !! "time" = Some (PInt (send + receive + wait))) /\
    (Float.eqb (Response.timestamp_start (Flow.response flow))
               (Request.timestamp_end (Flow.request flow)) = true ->
     wait = 0).
Proof.
  intros Hok.
  destruct (response_ok flow w w' Hok)
    as (timings & dt & log & entries & Ht & _ & Hlog & _ & _ & ->).
  destruct (timings_of_ok flow timings Ht)
    as (send & receive & wait & Hsend & Hreceive & Hwait & ->).
  exists send, receive, wait, log. do 3 eexists.
  split; [exact Hsend|]. split; [exact Hreceive|]. split; [exact Hwait|].
  split; [exact Hlog|].
  split; [apply log_entries_append|].
  split; [reflexivity|].
  split; [rewrite <- full_time_of_timings; reflexivity|].
  split.
  - intros Hs Hr Hw.
    rewrite <- (sum_nonnegative send receive wait Hs Hr Hw),
      <- full_time_of_timings.
    reflexivity.
  - intros Heq. exact (to_ms_sub_eqb _ _ _ Heq Hwait).
Qed.

(** C8.  When [response] returns for a flow, the entry it has appended to
    the entries that were there holds, in the content block of its
    response block, the compression 0 and as size the number of bytes of
    the body of the response, which is also the [bodySize] of the response
    block; its cache block is the empty dictionary. *)
Theorem response_sizes_and_cache (flow : Flow.t) (w w' : world) :
  response flow w = (Ok tt, w') ->
  exists log log' entries entry response_block content_block,
    log_entries (HAR w) = Ok (log, entries) /\
    log_entries (HAR w') = Ok (log', entries ++ [PDict entry]) /\
    entry !! "response" = Some (PDict response_block) /\
    response_block !! "content" = Some (PDict content_block) /\
    content_block !! "compression" = Some (PInt 0) /\
    content_block !! "size" =
      Some (PInt (len (Response.content (Flow.response flow)))) /\
    response_block !! "bodySize" =
      Some (PInt (len (Response.content (Flow.response flow)))) /\
    entry !! "cache" = Some (PDict ∅).
Proof.
  intros Hok.
  destruct (response_ok flow w w' Hok)
    as (timings & dt & log & entries & _ & _ & Hlog & _ & _ & ->).
  exists log. do 5 eexists.
  split; [exact Hlog|].
  split; [apply log_entries_append|].
  repeat split; reflexivity.
Qed.

(** When [response] raises, the world is as before. *)
Lemma response_raise (flow : Flow.t) (w w' : world) (e : py_error) :
  response flow w = (Raise e, w') -> w' = w.
Proof.
  unfold response.
  destruct (response_entry flow (HAR w)) as [[[log entries] entry]|e'];
    [discriminate|]. intros [= _ <-]. reflexivity.
Qed.

(** When [response] returns, it has appended one entry and changed
    nothing else: the other keys of the document and of the dictionary
    under ["log"], the files and the events are as before. *)
Lemma response_appends_one_entry (flow : Flow.t) (w w' : world) :
  response flow w = (Ok tt, w') ->
  exists log log' entries entry,
    log_entries (HAR w) = Ok (log, entries) /\
    log_entries (HAR w') = Ok (log', entries ++ [entry]) /\
    (forall key, key <> "entries" -> log' !! key = log !! key) /\
    (forall key, key <> "log" -> HAR w' !! key = HAR w !! key) /\
    sys_argv w' = sys_argv w /\ files w' = files w /\
    unwritable w' = unwritable w /\ events w' = events w.
Proof.
  intros Hok.
  destruct (response_ok flow w w' Hok)
    as (timings & dt & log & entries & _ & _ & Hlog & _ & _ & ->).
  do 4 eexists. split; [exact Hlog|].
  split; [apply log_entries_append|]. simpl.
  split; [intros key Hkey; apply lookup_insert_ne; congruence|].
  split; [intros key Hkey; apply lookup_insert_ne; congruence|].
  repeat split; reflexivity.
Qed.

(** A flow with a cookie, on either side, makes [response] raise. *)
Lemma response_cookie_raises (flow : Flow.t) (w : world) :
  group_cookies (Request.cookies_fields (Flow.request flow)) <> [] \/
  Response.cookies_fields (Flow.response flow) <> [] ->
  exists e, response flow w = (Raise e, w).
Proof.
  intros Hcookie.
  destruct (response flow w) as [[[]|e] w'] eqn:Hr.
  - destruct (response_ok flow w w' Hr) as (? & ? & ? & ? & _ & _ & _ & Hrq & Hrs & _).
    destruct Hcookie; contradiction.
  - exists e. rewrite (response_raise flow w w' e Hr). reflexivity.
Qed.

(** A flow without cookies, with timings that convert and a start time
    in the range of [datetime], appends its entry to a started document. *)
Lemma response_returns (flow : Flow.t) (w : world)
    (timings : gmap string Z) (dt : datetime)
    (log : gmap string pyvalue) (entries : list pyvalue) :
  timings_of flow = Ok timings ->
  utcfromtimestamp (Request.timestamp_start (Flow.request flow)) = Ok dt ->
  log_entries (HAR w) = Ok (log, entries) ->
  group_cookies (Request.cookies_fields (Flow.request flow)) = [] ->
  Response.cookies_fields (Flow.response flow) = [] ->
  fst (response flow w) = Ok tt.
Proof.
  intros Ht Hdt Hlog Hrq Hrs. unfold response, response_entry.
  rewrite Ht. simpl. rewrite Hdt. simpl. rewrite Hlog. simpl.
  unfold format_request_cookies, format_response_cookies.
  rewrite Hrq, Hrs. reflexivity.
Qed.

(** The entry of a flow does not depend on the entries already there. *)
Lemma appended_entry_started (flow : Flow.t) (w w' : world)
    (log log' : gmap string pyvalue) (entries entries' : list pyvalue) :
  log_entries (HAR w) = Ok (log, entries) ->
  log_entries (HAR w') = Ok (log', entries') ->
  appended_entry flow w' = appended_entry flow w.
Proof.
  intros Hw Hw'. unfold appended_entry, response_entry.
  destruct (timings_of flow) as [timings|]; simpl; [|reflexivity].
  destruct (utcfromtimestamp _) as [dt|]; simpl; [|reflexivity].
  rewrite Hw, Hw'. simpl.
  destruct (format_request_cookies _) as [rqc|]; simpl; [|reflexivity].
  destruct (format_response_cookies _) as [rsc|]; simpl; reflexivity.
Qed.

Lemma response_step (flow : Flow.t) (w : world)
    (log : gmap string pyvalue) (entries : list pyvalue) :
  log_entries (HAR w) = Ok (log, entries) ->
  exists log',
    log_entries (HAR (snd (response flow w)))
    = Ok (log', entries ++ option_list (appended_entry flow w)).
Proof.
  intros Hlog. unfold response, appended_entry.
  destruct (response_entry flow (HAR w)) as [[[l es] entry]|e] eqn:Hentry; simpl.
  - assert (es = entries) as ->.
    { revert Hentry. unfold response_entry.
      destruct (timings_of flow); simpl; [|discriminate].
      destruct (utcfromtimestamp _); simpl; [|discriminate].
      rewrite Hlog. simpl.
      destruct (format_request_cookies _); simpl; [|discriminate].
      destruct (format_response_cookies _); simpl; [|discriminate].
      intros [= _ <- _]. reflexivity. }
    eexists. apply log_entries_append.
  - exists log. rewrite app_nil_r. exact Hlog.
Qed.

(** After any sequence of calls the list holds, after the entries that
    were there, the entries of the flows for which [response] returned, in
    the order of the calls. *)
Lemma responses_entries (flows : list Flow.t) (w : world)
    (log : gmap string pyvalue) (entries : list pyvalue) :
  log_entries (HAR w) = Ok (log, entries) ->
  exists log',
    log_entries (HAR (responses flows w))
    = Ok (log', entries ++ omap (fun flow => appended_entry flow w) flows).
Proof.
  revert w log entries.
  induction flows as [|flow flows IH]; intros w log entries Hlog; simpl.
  - exists log. rewrite app_nil_r. exact Hlog.
  - destruct (response_step flow w log entries Hlog) as [log1 Hstep].
    assert (Hsame : omap (fun flow' => appended_entry flow' (snd (response flow w))) flows
                    = omap (fun flow' => appended_entry flow' w) flows).
    { apply list_omap_ext. clear IH.
      induction flows as [|flow' flows IH']; constructor; [|exact IH'].
      eapply appended_entry_started; eassumption. }
    destruct (IH _ _ _ Hstep) as [log' Hrest].
    exists log'. rewrite Hrest, Hsame, <- app_assoc. csimpl.
    destruct (appended_entry flow w); reflexivity.
Qed.

(** *** The cookie formatter of the specification *)

(** The keys [httpOnly] and [secure] are always there, as booleans that
    tell whether the attribute is present. *)
Lemma cookie_har_base_flags (name value : string) (attrs : gmap string string) :
  cookie_har_base name value attrs !! "httpOnly" = Some (PBool (has_key attrs "httpOnly")) /\
  cookie_har_base name value attrs !! "secure" = Some (PBool (has_key attrs "secure")).
Proof.
  unfold cookie_har_base. simpl. split.
  - rewrite lookup_insert_ne by discriminate. apply lookup_insert_eq.
  - apply lookup_insert_eq.
Qed.

(** The keys [path], [domain] and [comment] are copied when present and
    absent otherwise. *)
Lemma cookie_har_base_copied (name value : string) (attrs : gmap string string) :
  cookie_har_base name value attrs !! "path" = PStr <$> attrs !! "path" /\
  cookie_har_base name value attrs !! "domain" = PStr <$> attrs !! "domain" /\
  cookie_har_base name value attrs !! "comment" = PStr <$> attrs !! "comment".
Proof.
  unfold cookie_har_base. simpl.
  rewrite !(lookup_insert_ne _ "secure"), !(lookup_insert_ne _ "httpOnly") by discriminate.
  destruct (attrs !! "path"), (attrs !! "domain"), (attrs !! "comment");
    repeat split; reflexivity.
Qed.

Lemma cookie_har_base_no_expires (name value : string) (attrs : gmap string string) :
  cookie_har_base name value attrs !! "expires" = None.
Proof.
  unfold cookie_har_base. simpl.
  rewrite !(lookup_insert_ne _ "secure"), !(lookup_insert_ne _ "httpOnly") by discriminate.
  destruct (attrs !! "path"), (attrs !! "domain"), (attrs !! "comment"); reflexivity.
Qed.

(** With the lookup made on the module, a cookie with the attributes
    [path] and [secure] only, and no expiration, gives the record of the
    scenario. *)
Lemma format_cookies_spec_path_secure (name value path secure : string) :
  get_expiration_ts {[ "path" := path; "secure" := secure ]} = None ->
  format_cookies_spec [(name, value, {[ "path" := path; "secure" := secure ]})]
  = Ok (PList [PDict {[ "name" := PStr name; "value" := PStr value;
                        "path" := PStr path; "httpOnly" := PBool false;
                        "secure" := PBool true ]}]).
Proof.
  intros Hts. unfold format_cookies_spec. simpl. rewrite Hts. reflexivity.
Qed.

(** With the lookup made on the module, the record of a cookie has the
    key [expires] exactly when the timestamp is computed and is not
    zero; it then holds the formatted date. *)
Lemma format_cookie_spec_expires (name value : string)
    (attrs : gmap string string) (v : pyvalue) :
  format_cookie Module_cookies (name, value, attrs) = Ok v ->
  exists cookie_har,
    v = PDict cookie_har /\
    match get_expiration_ts attrs with
    | Some expire_ts =>
        if Float.truth expire_ts then
          exists dt, fromtimestamp expire_ts = Ok dt /\
                     cookie_har !! "expires" = Some (PStr (format_datetime dt))
        else cookie_har !! "expires" = None
    | None => cookie_har !! "expires" = None
    end.
Proof.
  unfold format_cookie. simpl.
  destruct (get_expiration_ts attrs) as [expire_ts|].
  - destruct (Float.truth expire_ts).
    + destruct (fromtimestamp expire_ts) as [dt|]; simpl; [|discriminate].
      intros [= <-]. eexists. split; [reflexivity|].
      exists dt. split; [reflexivity|apply lookup_insert_eq].
    + intros [= <-]. eexists. split; [reflexivity|apply cookie_har_base_no_expires].
  - intros [= <-]. eexists. split; [reflexivity|apply cookie_har_base_no_expires].
Qed.

(** *** The cookie formatter of the script *)

(** C3.  The cookie of the scenario, with the attributes [path] and
    [secure] only: [format_cookies] raises [AttributeError] on it and
    yields no record, because [cookies.get_expiration_ts] is looked up on
    its argument. *)
Theorem format_cookies_path_secure_raises :
  format_cookies [Sample.session_cookie]
  = Raise (AttributeError "get_expiration_ts").
Proof. apply format_cookies_cons. Qed.

(** C4.  [format_cookies] raises [AttributeError] on every list that has
    a cookie, whatever its attributes: no record is formatted, with or
    without the key [expires]. *)
Theorem format_cookies_raises (c : cookie_triple) (cookies : list cookie_triple) :
  format_cookies (c :: cookies) = Raise (AttributeError "get_expiration_ts").
Proof.
  unfold format_cookies. simpl. rewrite format_cookie_iterable. reflexivity.
Qed.

End Properties.

(** ** The hooks on concrete inputs *)

(** C7.  A flow whose response sets one cookie, on the started document:
    [response] raises [AttributeError], the document has no entry and the
    world is as before; without the cookie the same flow is recorded. *)
Theorem response_with_cookie_appends_nothing :
  response (H := Sample.library) Sample.flow_with_cookie (Sample.started "out.har")
  = (Raise (AttributeError "get_expiration_ts"), Sample.started "out.har") /\
  log_entries (HAR (Sample.started "out.har"))
  = Ok ({[ "version" := PStr "1.2";
           "creator" := PDict {[ "name" := PStr "mitmproxy har_dump";
                                 "version" := PStr "0.1";
                                 "comment" := PStr "mitmproxy version 0.18" ]};
           "entries" := PList [] ]}, []) /\
  fst (response (H := Sample.library) Sample.flow (Sample.started "out.har")) = Ok tt.
Proof. repeat split; vm_compute; reflexivity. Qed.

Lemma name_value_records_or_empty_string_witness :
  name_value Sample.headers
  = PList [PDict {[ "name" := PStr "Host"; "value" := PStr "example.org" ]};
           PDict {[ "name" := PStr "Accept"; "value" := PStr "*/*" ]}] /\
  name_value Sample.query_dict
  = PList [PDict {[ "name" := PStr "q"; "value" := PStr "rocq" ]}] /\
  name_value Sample.no_query = PStr "" /\
  name_value empty_dict = PStr "" /\
  name_value Sample.opaque = PStr "" /\
  name_value Sample.no_query <> PList [].
Proof.
  split; [|split; [|split; [|split; [|split]]]].
  - apply (proj1 (name_value_records_or_empty_string Sample.headers)
             [("Host", "example.org"); ("Accept", "*/*")] eq_refl).
    discriminate.
  - apply (proj1 (proj2 (name_value_records_or_empty_string Sample.query_dict))
             [("q", "rocq")] eq_refl eq_refl).
    discriminate.
  - exact (proj1 (proj2 (proj2 (name_value_records_or_empty_string Sample.no_query)))
             eq_refl).
  - exact (proj1 (proj2 (proj2 (proj2 (name_value_records_or_empty_string empty_dict))))
             eq_refl eq_refl).
  - exact (proj1 (proj2 (proj2 (proj2 (proj2
             (name_value_records_or_empty_string Sample.opaque)))))
             eq_refl eq_refl).
  - exact (proj2 (proj2 (proj2 (proj2 (proj2
             (name_value_records_or_empty_string Sample.no_query)))))).
Defined.

Lemma name_value_fields_before_items_witness :
  name_value Sample.headers
  = PList [PDict {[ "name" := PStr "Host"; "value" := PStr "example.org" ]};
           PDict {[ "name" := PStr "Accept"; "value" := PStr "*/*" ]}] /\
  name_value Sample.query_dict
  = PList [PDict {[ "name" := PStr "q"; "value" := PStr "rocq" ]}] /\
  name_value Sample.opaque = PStr "".
Proof.
  split; [|split].
  - exact (proj1 (name_value_fields_before_items Sample.headers)
             [("Host", "example.org"); ("Accept", "*/*")]
             [("Accept", "*/*"); ("Host", "example.org")] eq_refl eq_refl).
  - exact (proj1 (proj2 (name_value_fields_before_items Sample.query_dict))
             [("q", "rocq")] eq_refl eq_refl).
  - exact (proj2 (proj2 (name_value_fields_before_items Sample.opaque))
             eq_refl eq_refl).
Defined.


Lemma done_logs_or_writes_witness :
  (fst (done (H := Sample.library) (Sample.started "-")) = Ok tt /\
   new_events (Sample.started "-") (snd (done (H := Sample.library) (Sample.started "-")))
   = [EvLog "{...}"] /\
   files (snd (done (H := Sample.library) (Sample.started "-")))
   = {[ "old.har" := "stale" ]}) /\
  (fst (done (H := Sample.library) (Sample.started "old.har")) = Ok tt /\
   new_events (Sample.started "old.har")
     (snd (done (H := Sample.library) (Sample.started "old.har")))
   = [EvOpen "old.har"; EvWrite "old.har" "{...}"; EvClose "old.har"] /\
   files (snd (done (H := Sample.library) (Sample.started "old.har"))) !! "old.har"
   = Some "{...}").
Proof.
  split.
  - destruct (proj1 (done_logs_or_writes (H := Sample.library)
                       (Sample.started "-") "-" eq_refl) eq_refl)
      as (Hret & Hev & Hfiles & _).
    split; [exact Hret|]. split; [exact Hev|exact Hfiles].
  - assert (Hne : "old.har" <> "-") by discriminate.
    assert (Hw : "old.har" ∉ unwritable (Sample.started "old.har"))
      by apply not_elem_of_empty.
    destruct (proj2 (done_logs_or_writes (H := Sample.library)
                       (Sample.started "old.har") "old.har" eq_refl)
                Hne Hw "{...}" eq_refl)
      as (Hret & Hev & Hfile & _ & _).
    split; [exact Hret|]. split; [exact Hev|exact Hfile].
Defined.

Lemma response_timings_witness :
  exists log entry,
    log_entries (HAR (snd (response (H := Sample.library) Sample.flow
                             (Sample.started "out.har"))))
    = Ok (log, [PDict entry]) /\
    entry !! "timings" =
      Some (PDict {[ "send" := PInt 250; "receive" := PInt 1250; "wait" := PInt 0 ]}) /\
    entry !! "time" = Some (PInt 1500).
Proof.
  assert (Hok : response (H := Sample.library) Sample.flow (Sample.started "out.har")
                = (Ok tt, snd (response (H := Sample.library) Sample.flow
                                 (Sample.started "out.har"))))
    by (vm_compute; reflexivity).
  destruct (response_timings (H := Sample.library) _ _ _ Hok)
    as (send & receive & wait & log & log' & entries & entry
        & Hsend & Hreceive & Hwait & Hbefore & Hlog & Htimings & _ & Htime & _).
  assert (Es : send = 250) by (vm_compute in Hsend; congruence).
  assert (Er : receive = 1250) by (vm_compute in Hreceive; congruence).
  assert (Ew : wait = 0) by (vm_compute in Hwait; congruence).
  assert (Ee : entries = []) by (vm_compute in Hbefore; congruence).
  subst send receive wait entries.
  exists log', entry.
  split; [exact Hlog|]. split; [exact Htimings|].
  apply Htime; lia.
Defined.

Lemma response_sizes_and_cache_witness :
  exists log log' entries entry response_block content_block,
    log_entries (HAR (Sample.started "out.har")) = Ok (log, entries) /\
    log_entries (HAR (snd (response (H := Sample.library) Sample.flow
                             (Sample.started "out.har"))))
    = Ok (log', entries ++ [PDict entry]) /\
    entry !! "response" = Some (PDict response_block) /\
    response_block !! "content" = Some (PDict content_block) /\
    content_block !! "compression" = Some (PInt 0) /\
    content_block !! "size" = Some (PInt 7) /\
    response_block !! "bodySize" = Some (PInt 7) /\
    entry !! "cache" = Some (PDict ∅).
Proof.
  assert (Hok : response (H := Sample.library) Sample.flow (Sample.started "out.har")
                = (Ok tt, snd (response (H := Sample.library) Sample.flow
                                 (Sample.started "out.har"))))
    by (vm_compute; reflexivity).
  exact (response_sizes_and_cache (H := Sample.library) _ _ _ Hok).
Defined.

(** ** Further properties of the float operations *)

Section MoreFloatProperties.

(** [int] returns exactly on the finite floats. *)
Lemma to_int_is_finite (x : spec_float) :
  is_ok (Float.to_int x) = Float.is_finite x.
Proof. destruct x; reflexivity. Qed.

Lemma sub_not_finite_l (x y : spec_float) :
  Float.is_finite x = false -> Float.is_finite (Float.sub x y) = false.
Proof.
  destruct x as [s|s| |s m e]; try discriminate; intros _.
  - destruct y as [s'|s'| |s' m' e']; try reflexivity. destruct s, s'; reflexivity.
  - reflexivity.
Qed.

Lemma sub_not_finite_r (x y : spec_float) :
  Float.is_finite y = false -> Float.is_finite (Float.sub x y) = false.
Proof.
  destruct y as [s|s| |s m e]; try discriminate; intros _.
  - destruct x as [s'|s'| |s' m' e']; try reflexivity. destruct s', s; reflexivity.
  - destruct x; reflexivity.
Qed.

Lemma to_ms_not_finite (v : spec_float) :
  Float.is_finite v = false -> is_ok (to_ms v) = false.
Proof.
  unfold to_ms. rewrite of_int_1000, to_int_is_finite.
  destruct v; try discriminate; reflexivity.
Qed.

(** Adding up numbers none of which is negative. *)
Lemma foldl_add_nonnegative (l : list Z) (acc : Z) :
  Forall (fun v => 0 <= v) l ->
  acc <= foldl Z.add acc l /\ forall v, In v l -> acc + v <= foldl Z.add acc l.
Proof.
  intros Hl. revert acc.
  induction Hl as [|x l Hx Hl IH]; intros acc; simpl.
  - split; [lia|contradiction].
  - destruct (IH (acc + x)) as [Hacc Hin]. split; [lia|].
    intros v [<-|Hv]; [lia|]. specialize (Hin v Hv). lia.
Qed.

End MoreFloatProperties.

(** ** Further properties of the script *)

Section MoreProperties.

Context `{Library}.

(** *** When [response] returns *)

Lemma response_timings_raise (flow : Flow.t) (w : world) :
  is_ok (timings_of flow) = false -> exists e, response flow w = (Raise e, w).
Proof.
  unfold response, response_entry.
  destruct (timings_of flow) as [timings|e]; [discriminate|].
  intros _. exists e. reflexivity.
Qed.

Lemma timings_of_raise (flow : Flow.t) :
  is_ok (to_ms (Float.sub (Request.timestamp_end (Flow.request flow))
                          (Request.timestamp_start (Flow.request flow)))) = false \/
  is_ok (to_ms (Float.sub (Response.timestamp_end (Flow.response flow))
                          (Response.timestamp_start (Flow.response flow)))) = false \/
  is_ok (to_ms (Float.sub (Response.timestamp_start (Flow.response flow))
                          (Request.timestamp_end (Flow.request flow)))) = false ->
  is_ok (timings_of flow) = false.
Proof.
  unfold timings_of, timings_raw. rewrite map_to_list_timings. simpl.
  destruct (to_ms (Float.sub (Response.timestamp_start _) _)) as [wait|];
    [|reflexivity].
  destruct (to_ms (Float.sub (Request.timestamp_end _) _)) as [send|];
    [|reflexivity].
  destruct (to_ms (Float.sub (Response.timestamp_end _) _)) as [receive|];
    [|reflexivity].
  simpl. intros [Hraise|[Hraise|Hraise]]; discriminate.
Qed.

(** X1.  [response] returns for a flow exactly when the three timings
    convert to integers, the start time of the request is in the range of
    [datetime], [HAR["log"]["entries"]] is a list, and the flow has no
    cookie on the request side and none on the response side. *)
Theorem response_returns_iff (flow : Flow.t) (w : world) :
  fst (response flow w) = Ok tt <->
  is_ok (timings_of flow) = true /\
  is_ok (utcfromtimestamp (Request.timestamp_start (Flow.request flow))) = true /\
  is_ok (log_entries (HAR w)) = true /\
  group_cookies (Request.cookies_fields (Flow.request flow)) = [] /\
  Response.cookies_fields (Flow.response flow) = [].
Proof.
  split.
  - destruct (response flow w) as [r w'] eqn:Hr. simpl. intros ->.
    destruct (response_ok flow w w' Hr)
      as (timings & dt & log & entries & -> & -> & -> & Hrq & Hrs & _).
    repeat split; assumption.
  - intros (Ht & Hdt & Hlog & Hrq & Hrs).
    destruct (timings_of flow) as [timings|] eqn:Et; [|discriminate].
    destruct (utcfromtimestamp _) as [dt|] eqn:Edt; [|discriminate].
    destruct (log_entries (HAR w)) as [[log entries]|] eqn:Elog; [|discriminate].
    exact (response_returns flow w timings dt log entries Et Edt Elog Hrq Hrs).
Qed.

(** X2.  A flow one of whose four timestamps is a NaN or an infinity is
    not recorded: [response] raises and the world is as before. *)
Theorem response_not_finite_timestamp (flow : Flow.t) (w : world) :
  Float.is_finite (Request.timestamp_start (Flow.request flow)) = false \/
  Float.is_finite (Request.timestamp_end (Flow.request flow)) = false \/
  Float.is_finite (Response.timestamp_start (Flow.response flow)) = false \/
  Float.is_finite (Response.timestamp_end (Flow.response flow)) = false ->
  exists e, response flow w = (Raise e, w).
Proof.
  intros Hnot. apply response_timings_raise, timings_of_raise.
  destruct Hnot as [Hnot|[Hnot|[Hnot|Hnot]]].
  - left. apply to_ms_not_finite, sub_not_finite_r, Hnot.
  - left. apply to_ms_not_finite, sub_not_finite_l, Hnot.
  - right. left. apply to_ms_not_finite, sub_not_finite_r, Hnot.
  - right. left. apply to_ms_not_finite, sub_not_finite_l, Hnot.
Qed.

(** X3.  The total of line 71 is never negative and is at least each of
    the timings, whatever the timings are. *)
Theorem full_time_of_bounds (timings : gmap string Z) :
  0 <= full_time_of timings /\
  forall key v, timings !! key = Some v -> v <= full_time_of timings.
Proof.
  unfold full_time_of, sum.
  set (counted := List.filter (fun v => -1 <? v) (map snd (map_to_list timings))).
  assert (Hcounted : Forall (fun v => 0 <= v) counted).
  { apply List.Forall_forall. intros v Hv.
    apply List.filter_In in Hv as [_ Hv]. apply Z.ltb_lt in Hv. lia. }
  destruct (foldl_add_nonnegative counted 0 Hcounted) as [Hacc Hin].
  split; [exact Hacc|].
  intros key v Hkey.
  destruct (Z.ltb_spec (-1) v) as [Hv|Hv]; [|lia].
  apply (Hin v). apply List.filter_In. split; [|apply Z.ltb_lt, Hv].
  apply (List.in_map snd _ (key, v)), list_elem_of_In, elem_of_map_to_list, Hkey.
Qed.

(** *** What [response] changes *)

(** Whether it returns or raises, [response] changes the document only. *)
Lemma response_world (flow : Flow.t) (w : world) :
  snd (response flow w) = set_HAR (HAR (snd (response flow w))) w.
Proof.
  unfold response.
  destruct (response_entry flow (HAR w)) as [[[log entries] entry]|e]; simpl.
  - reflexivity.
  - destruct w; reflexivity.
Qed.

Lemma log_entries_ok (har log : gmap string pyvalue) (entries : list pyvalue) :
  log_entries har = Ok (log, entries) ->
  har !! "log" = Some (PDict log) /\ log !! "entries" = Some (PList entries).
Proof.
  unfold log_entries.
  destruct (har !! "log") as [[| | | |d]|]; try discriminate.
  destruct (d !! "entries") as [[| | |l|]|] eqn:Hd; try discriminate.
  intros [= <- <-]. auto.
Qed.

(** X4.  Whether [response] returns or raises, it opens or writes no
    file, logs nothing and leaves [sys.argv] alone, and in the document it
    changes no key other than ["log"]. *)
Theorem response_changes_only_log (flow : Flow.t) (w : world) :
  sys_argv (snd (response flow w)) = sys_argv w /\
  files (snd (response flow w)) = files w /\
  unwritable (snd (response flow w)) = unwritable w /\
  events (snd (response flow w)) = events w /\
  forall key, key <> "log" -> HAR (snd (response flow w)) !! key = HAR w !! key.
Proof.
  rewrite (response_world flow w). simpl. repeat split.
  intros key Hkey. unfold response.
  destruct (response_entry flow (HAR w)) as [[[log entries] entry]|e]; simpl.
  - apply lookup_insert_ne. congruence.
  - reflexivity.
Qed.

(** X5.  Called on a document without the key ["log"], as before
    [start], [response] raises and the world is as before; the exception
    is [KeyError "log"] when the timings and the start time are computed. *)
Theorem response_before_start (flow : Flow.t) (w : world) :
  HAR w !! "log" = None ->
  (exists e, response flow w = (Raise e, w)) /\
  (is_ok (timings_of flow) = true ->
   is_ok (utcfromtimestamp (Request.timestamp_start (Flow.request flow))) = true ->
   response flow w = (Raise (KeyError "log"), w)).
Proof.
  intros Hlog. unfold response, response_entry, log_entries. rewrite Hlog.
  destruct (timings_of flow) as [timings|e]; simpl.
  - destruct (utcfromtimestamp _) as [dt|e]; simpl.
    + split; [eexists; reflexivity|]. reflexivity.
    + split; [eexists; reflexivity|]. discriminate.
  - split; [eexists; reflexivity|]. discriminate.
Qed.

(** X6.  In a recorded entry the optional data that are missing are
    empty strings: the query string of a request whose query is false (no
    parameters), the redirect URL of a response without a [Location]
    header and the MIME type of a response without a [Content-Type]
    header.  A query that is true is converted by [name_value], and a
    header that is there is copied. *)
Theorem response_missing_data (flow : Flow.t) (w w' : world) :
  response flow w = (Ok tt, w') ->
  exists log log' entries entry request_block response_block content_block,
    log_entries (HAR w) = Ok (log, entries) /\
    log_entries (HAR w') = Ok (log', entries ++ [PDict entry]) /\
    entry !! "request" = Some (PDict request_block) /\
    entry !! "response" = Some (PDict response_block) /\
    response_block !! "content" = Some (PDict content_block) /\
    request_block !! "queryString" =
      Some (if obj_truth (Request.query (Flow.request flow))
            then name_value (Request.query (Flow.request flow))
            else PStr "") /\
    response_block !! "redirectURL" =
      Some (PStr (default "" (obj_get (Response.headers (Flow.response flow)) "Location"))) /\
    content_block !! "mimeType" =
      Some (PStr (default "" (obj_get (Response.headers (Flow.response flow)) "Content-Type"))).
Proof.
  intros Hok.
  destruct (response_ok flow w w' Hok)
    as (timings & dt & log & entries & _ & _ & Hlog & _ & _ & ->).
  exists log. do 6 eexists.
  split; [exact Hlog|].
  split; [apply log_entries_append|].
  split; [reflexivity|]. split; [reflexivity|]. split; [reflexivity|].
  split; [|split].
  - unfold or_else.
    destruct (obj_truth (Request.query (Flow.request flow))); reflexivity.
  - unfold get_default. destruct (obj_get _ "Location"); reflexivity.
  - unfold get_default. destruct (obj_get _ "Content-Type"); reflexivity.
Qed.

(** X7.  A recorded entry has no cookie: its request block and its
    response block both hold the empty list under ["cookies"], and the
    flow had no cookie on either side. *)
Theorem response_records_no_cookie (flow : Flow.t) (w w' : world) :
  response flow w = (Ok tt, w') ->
  group_cookies (Request.cookies_fields (Flow.request flow)) = [] /\
  Response.cookies_fields (Flow.response flow) = [] /\
  exists log log' entries entry request_block response_block,
    log_entries (HAR w) = Ok (log, entries) /\
    log_entries (HAR w') = Ok (log', entries ++ [PDict entry]) /\
    entry !! "request" = Some (PDict request_block) /\
    entry !! "response" = Some (PDict response_block) /\
    request_block !! "cookies" = Some (PList []) /\
    response_block !! "cookies" = Some (PList []).
Proof.
  intros Hok.
  destruct (response_ok flow w w' Hok)
    as (timings & dt & log & entries & _ & _ & Hlog & Hrq & Hrs & ->).
  split; [exact Hrq|]. split; [exact Hrs|].
  exists log. do 5 eexists.
  split; [exact Hlog|].
  split; [apply log_entries_append|].
  repeat split; reflexivity.
Qed.

(** *** Sequences of calls *)

Lemma responses_world (flows : list Flow.t) (w : world) :
  responses flows w = set_HAR (HAR (responses flows w)) w.
Proof.
  revert w. induction flows as [|flow flows IH]; intros w; simpl.
  - destruct w; reflexivity.
  - rewrite (IH (snd (response flow w))) at 1.
    rewrite (response_world flow w) at 2. reflexivity.
Qed.

(** The document after one call: the entry, if there is one, is appended
    under ["log"]["entries"]. *)
Lemma response_step_HAR (flow : Flow.t) (w : world)
    (log : gmap string pyvalue) (entries : list pyvalue) :
  log_entries (HAR w) = Ok (log, entries) ->
  HAR (snd (response flow w))
  = <["log" := PDict (<["entries" :=
        PList (entries ++ option_list (appended_entry flow w))]> log)]> (HAR w).
Proof.
  intros Hlog. unfold response, appended_entry.
  destruct (response_entry flow (HAR w)) as [[[l es] entry]|e] eqn:Hentry; simpl.
  - revert Hentry. unfold response_entry.
    destruct (timings_of flow); simpl; [|discriminate].
    destruct (utcfromtimestamp _); simpl; [|discriminate].
    rewrite Hlog. simpl.
    destruct (format_request_cookies _); simpl; [|discriminate].
    destruct (format_response_cookies _); simpl; [|discriminate].
    intros [= <- <- _]. reflexivity.
  - destruct (log_entries_ok _ _ _ Hlog) as [Hhar Hentries].
    rewrite app_nil_r, (insert_id log "entries" _ Hentries).
    symmetry. apply insert_id, Hhar.
Qed.

(** The document after a sequence of calls. *)
Lemma responses_HAR (flows : list Flow.t) (w : world)
    (log : gmap string pyvalue) (entries : list pyvalue) :
  log_entries (HAR w) = Ok (log, entries) ->
  HAR (responses flows w)
  = <["log" := PDict (<["entries" :=
        PList (entries ++ omap (fun flow => appended_entry flow w) flows)]> log)]>
      (HAR w).
Proof.
  revert w log entries.
  induction flows as [|flow flows IH]; intros w log entries Hlog.
  - destruct (log_entries_ok _ _ _ Hlog) as [Hhar Hentries]. simpl.
    rewrite app_nil_r, (insert_id log "entries" _ Hentries).
    symmetry. apply insert_id, Hhar.
  - pose proof (response_step_HAR flow w log entries Hlog) as Hstep.
    assert (Hlog1 : log_entries (HAR (snd (response flow w)))
                    = Ok (<["entries" := PList (entries ++ option_list (appended_entry flow w))]> log,
                          entries ++ option_list (appended_entry flow w)))
      by (rewrite Hstep; apply log_entries_append).
    assert (Hsame : omap (fun flow' => appended_entry flow' (snd (response flow w))) flows
                    = omap (fun flow' => appended_entry flow' w) flows).
    { apply list_omap_ext. clear IH.
      induction flows as [|flow' flows IH']; constructor; [|exact IH'].
      eapply appended_entry_started; eassumption. }
    change (responses (flow :: flows) w) with (responses flows (snd (response flow w))).
    rewrite (IH _ _ _ Hlog1), Hsame, Hstep, !insert_insert_eq, <- app_assoc.
    csimpl. destruct (appended_entry flow w); reflexivity.
Qed.

(** X8.  After any sequence of calls of [response] on a started document,
    the list under ["entries"] is the list that was there followed by the
    entries of the flows on which [response] returned, in the order of the
    calls; a call that raises leaves no trace.  The other keys of the
    dictionary under ["log"] and of the document, the files and the events
    are as before. *)
Theorem responses_record_in_call_order (flows : list Flow.t) (w : world)
    (log : gmap string pyvalue) (entries : list pyvalue) :
  log_entries (HAR w) = Ok (log, entries) ->
  exists log',
    log_entries (HAR (responses flows w))
    = Ok (log', entries ++ omap (fun flow => appended_entry flow w) flows) /\
    (forall key, key <> "entries" -> log' !! key = log !! key) /\
    (forall key, key <> "log" -> HAR (responses flows w) !! key = HAR w !! key) /\
    files (responses flows w) = files w /\
    events (responses flows w) = events w.
Proof.
  intros Hlog. eexists.
  rewrite (responses_HAR flows w log entries Hlog).
  split; [apply log_entries_append|].
  split; [intros key Hkey; apply lookup_insert_ne; congruence|].
  split; [intros key Hkey; apply lookup_insert_ne; congruence|].
  rewrite (responses_world flows w). split; reflexivity.
Qed.

(** The dictionary [start] binds to ["log"], with its empty list of
    entries. *)
Lemma log_entries_initial (har : gmap string pyvalue) :
  exists log,
    initial_log = PDict log /\
    log_entries (<["log" := initial_log]> har) = Ok (log, []).
Proof.
  eexists. split; [reflexivity|].
  unfold log_entries. rewrite lookup_insert_eq. reflexivity.
Qed.

(** The document of a script started on its empty dictionary, after a
    sequence of calls. *)
Lemma started_document (flows : list Flow.t) (w : world) :
  length (sys_argv w) = 2%nat ->
  HAR w = ∅ ->
  HAR (responses flows (snd (start w)))
  = {[ "log" := PDict {[
         "version" := PStr "1.2";
         "creator" := PDict {[
           "name" := PStr "mitmproxy har_dump";
           "version" := PStr "0.1";
           "comment" := PStr ("mitmproxy version " +:+ MITMPROXY) ]};
         "entries" :=
           PList (omap (fun flow => appended_entry flow (snd (start w))) flows) ]} ]}.
Proof.
  intros Hargv Hempty.
  assert (Hstart : snd (start w) = set_HAR (<["log" := initial_log]> ∅) w).
  { unfold start. rewrite Hargv, Hempty. reflexivity. }
  rewrite Hstart.
  destruct (log_entries_initial ∅) as (log & Hinit & Hlog).
  rewrite (responses_HAR flows (set_HAR (<["log" := initial_log]> ∅) w) log [] Hlog).
  unfold initial_log in Hinit. injection Hinit as <-.
  simpl. rewrite !insert_insert_eq. reflexivity.
Qed.

(** X9.  After [start] on the empty dictionary of the loaded script and
    any sequence of calls of [response], the document has the single key
    ["log"], with the version ["1.2"], the creator [start] has set and as
    entries those of the flows on which [response] returned, in the order
    of the calls; no file has been touched and nothing has been logged. *)
Theorem document_after_responses (flows : list Flow.t) (w : world) :
  length (sys_argv w) = 2%nat ->
  HAR w = ∅ ->
  HAR (responses flows (snd (start w)))
  = {[ "log" := PDict {[
         "version" := PStr "1.2";
         "creator" := PDict {[
           "name" := PStr "mitmproxy har_dump";
           "version" := PStr "0.1";
           "comment" := PStr ("mitmproxy version " +:+ MITMPROXY) ]};
         "entries" :=
           PList (omap (fun flow => appended_entry flow (snd (start w))) flows) ]} ]} /\
  files (responses flows (snd (start w))) = files w /\
  events (responses flows (snd (start w))) = events w.
Proof.
  intros Hargv Hempty. split; [exact (started_document flows w Hargv Hempty)|].
  rewrite (responses_world flows (snd (start w))). simpl.
  unfold start. rewrite Hargv. split; reflexivity.
Qed.

(** X10.  [start] discards what was recorded: after [start], any calls
    of [response] and [start] again, the world is the one after the first
    [start]. *)
Theorem start_discards_entries (flows : list Flow.t) (w : world) :
  length (sys_argv w) = 2%nat ->
  snd (start (responses flows (snd (start w)))) = snd (start w).
Proof.
  intros Hargv.
  assert (Hstart : snd (start w) = set_HAR (<["log" := initial_log]> (HAR w)) w).
  { unfold start. rewrite Hargv. reflexivity. }
  destruct (log_entries_initial (HAR w)) as (log & _ & Hlog).
  rewrite (responses_world flows (snd (start w))), Hstart.
  rewrite (responses_HAR flows (set_HAR (<["log" := initial_log]> (HAR w)) w) log [] Hlog).
  unfold start. simpl. rewrite Hargv. simpl.
  rewrite !insert_insert_eq. reflexivity.
Qed.

(** *** [done] *)

(** X11.  Whatever it does, [done] leaves the document, [sys.argv] and
    every file other than the destination as they were, and it only adds
    to the events. *)
Theorem done_touches_only_destination (w : world) :
  HAR (snd (done w)) = HAR w /\
  sys_argv (snd (done w)) = sys_argv w /\
  (forall path, sys_argv w !! 1%nat <> Some path ->
     files (snd (done w)) !! path = files w !! path) /\
  exists added, events (snd (done w)) = events w ++ added.
Proof.
  unfold done.
  destruct (sys_argv w !! 1%nat) as [dump_file|].
  - destruct (String.eqb dump_file "-").
    { simpl. repeat split; eauto. }
    destruct (bool_decide (dump_file ∈ unwritable w)).
    { simpl. repeat split. exists []. symmetry. apply app_nil_r. }
    simpl.
    destruct (json_dumps (PDict (HAR w)) 2) as [data|e]; simpl;
      (split; [reflexivity|]; split; [reflexivity|]; split;
       [intros path Hpath; rewrite ?lookup_insert_ne by congruence; reflexivity|]);
      rewrite <- ?app_assoc; eauto.
  - simpl. repeat split. exists []. symmetry. apply app_nil_r.
Qed.

(** X12.  When [json.dumps] raises on the document, [done] has already
    opened the destination for writing: the exception goes through, the
    file is left empty, whatever it held, and nothing is written. *)
Theorem done_dumps_raises (w : world) (dump_file : string) (e : py_error) :
  sys_argv w !! 1%nat = Some dump_file ->
  dump_file <> "-" ->
  dump_file ∉ unwritable w ->
  json_dumps (PDict (HAR w)) 2 = Raise e ->
  fst (done w) = Raise e /\
  files (snd (done w)) !! dump_file = Some "" /\
  new_events w (snd (done w)) = [EvOpen dump_file; EvClose dump_file].
Proof.
  intros Hargv Hne Hw Hdumps. unfold done, new_events. rewrite Hargv.
  apply String.eqb_neq in Hne. rewrite Hne.
  rewrite bool_decide_eq_false_2 by exact Hw.
  simpl. rewrite Hdumps. simpl.
  rewrite <- !app_assoc, drop_app_length.
  split; [reflexivity|]. split; [apply lookup_insert_eq|reflexivity].
Qed.

(** X13.  A whole run: the script is loaded with one destination that is
    not ["-"] and can be opened for writing; [start], then [response] on
    any flows, then [done].  If [json.dumps] serializes the document of the
    recorded entries, the run ends with that serialization in the
    destination, the other files as before, and the three events open,
    write and close as its only effects. *)
Theorem run_writes_recorded_document (flows : list Flow.t) (w : world)
    (script dump_file data : string) :
  sys_argv w = [script; dump_file] ->
  HAR w = ∅ ->
  dump_file <> "-" ->
  dump_file ∉ unwritable w ->
  json_dumps
    (PDict {[ "log" := PDict {[
       "version" := PStr "1.2";
       "creator" := PDict {[
         "name" := PStr "mitmproxy har_dump";
         "version" := PStr "0.1";
         "comment" := PStr ("mitmproxy version " +:+ MITMPROXY) ]};
       "entries" :=
         PList (omap (fun flow => appended_entry flow (snd (start w))) flows) ]} ]})
    2 = Ok data ->
  fst (done (responses flows (snd (start w)))) = Ok tt /\
  files (snd (done (responses flows (snd (start w))))) = <[dump_file := data]> (files w) /\
  new_events w (snd (done (responses flows (snd (start w)))))
  = [EvOpen dump_file; EvWrite dump_file data; EvClose dump_file].
Proof.
  intros Hargv Hempty Hne Hw Hdumps.
  assert (Hlen : length (sys_argv w) = 2%nat) by (rewrite Hargv; reflexivity).
  pose proof (started_document flows w Hlen Hempty) as Hdoc.
  assert (Hstart : snd (start w) = set_HAR (<["log" := initial_log]> (HAR w)) w)
    by (unfold start; rewrite Hlen; reflexivity).
  set (recorded := omap (fun flow => appended_entry flow (snd (start w))) flows) in *.
  rewrite (responses_world flows (snd (start w))), Hdoc, Hstart.
  unfold done, new_events. simpl. rewrite Hargv. simpl.
  apply String.eqb_neq in Hne. rewrite Hne.
  rewrite bool_decide_eq_false_2 by exact Hw.
  simpl. rewrite Hdumps. simpl.
  rewrite <- !app_assoc, drop_app_length, insert_insert_eq.
  repeat split; reflexivity.
Qed.

End MoreProperties.

(** ** The further properties on concrete inputs *)

Lemma response_returns_iff_witness :
  is_ok (timings_of Sample.flow) = true /\
  Response.cookies_fields (Flow.response Sample.flow) = [].
Proof.
  destruct (proj1 (response_returns_iff (H := Sample.library) Sample.flow
                     (Sample.started "out.har")))
    as (Htimings & _ & _ & _ & Hcookies); [vm_compute; reflexivity|].
  split; [exact Htimings|exact Hcookies].
Defined.

Lemma response_not_finite_timestamp_witness :
  exists e,
    response (H := Sample.library) Sample.flow_nan (Sample.started "out.har")
    = (Raise e, Sample.started "out.har").
Proof.
  apply (response_not_finite_timestamp (H := Sample.library)).
  left. reflexivity.
Defined.

Lemma full_time_of_bounds_witness :
  0 <= full_time_of {[ "send" := 250; "receive" := -1; "wait" := 0 ]} /\
  250 <= full_time_of {[ "send" := 250; "receive" := -1; "wait" := 0 ]}.
Proof.
  destruct (full_time_of_bounds {[ "send" := 250; "receive" := -1; "wait" := 0 ]})
    as [Hzero Heach].
  split; [exact Hzero|]. apply (Heach "send"). reflexivity.
Defined.

Lemma response_changes_only_log_witness :
  files (snd (response (H := Sample.library) Sample.flow (Sample.started "out.har")))
  = files (Sample.started "out.har") /\
  HAR (snd (response (H := Sample.library) Sample.flow (Sample.started "out.har")))
    !! "pages"
  = HAR (Sample.started "out.har") !! "pages".
Proof.
  destruct (response_changes_only_log (H := Sample.library) Sample.flow
              (Sample.started "out.har"))
    as (_ & Hfiles & _ & _ & Hkeys).
  split; [exact Hfiles|]. apply Hkeys. discriminate.
Defined.

Lemma response_before_start_witness :
  response (H := Sample.library) Sample.flow (Sample.loaded ["har_dump.py"; "out.har"])
  = (Raise (KeyError "log"), Sample.loaded ["har_dump.py"; "out.har"]).
Proof.
  apply (proj2 (response_before_start (H := Sample.library) Sample.flow
                  (Sample.loaded ["har_dump.py"; "out.har"]) eq_refl));
    vm_compute; reflexivity.
Defined.

Lemma response_missing_data_witness :
  exists log log' entries entry request_block response_block content_block,
    log_entries (HAR (Sample.started "out.har")) = Ok (log, entries) /\
    log_entries (HAR (snd (response (H := Sample.library) Sample.flow
                             (Sample.started "out.har"))))
    = Ok (log', entries ++ [PDict entry]) /\
    entry !! "request" = Some (PDict request_block) /\
    entry !! "response" = Some (PDict response_block) /\
    response_block !! "content" = Some (PDict content_block) /\
    request_block !! "queryString" = Some (PStr "") /\
    response_block !! "redirectURL" = Some (PStr "") /\
    content_block !! "mimeType" = Some (PStr "").
Proof.
  assert (Hok : response (H := Sample.library) Sample.flow (Sample.started "out.har")
                = (Ok tt, snd (response (H := Sample.library) Sample.flow
                                 (Sample.started "out.har"))))
    by (vm_compute; reflexivity).
  exact (response_missing_data (H := Sample.library) _ _ _ Hok).
Defined.

Lemma response_records_no_cookie_witness :
  Response.cookies_fields (Flow.response Sample.flow) = [] /\
  exists log log' entries entry request_block response_block,
    log_entries (HAR (Sample.started "out.har")) = Ok (log, entries) /\
    log_entries (HAR (snd (response (H := Sample.library) Sample.flow
                             (Sample.started "out.har"))))
    = Ok (log', entries ++ [PDict entry]) /\
    entry !! "request" = Some (PDict request_block) /\
    entry !! "response" = Some (PDict response_block) /\
    request_block !! "cookies" = Some (PList []) /\
    response_block !! "cookies" = Some (PList []).
Proof.
  assert (Hok : response (H := Sample.library) Sample.flow (Sample.started "out.har")
                = (Ok tt, snd (response (H := Sample.library) Sample.flow
                                 (Sample.started "out.har"))))
    by (vm_compute; reflexivity).
  exact (proj2 (response_records_no_cookie (H := Sample.library) _ _ _ Hok)).
Defined.

Lemma responses_record_in_call_order_witness :
  exists log log',
    log_entries (HAR (Sample.started "out.har")) = Ok (log, []) /\
    log_entries
      (HAR (responses (H := Sample.library)
              [Sample.flow; Sample.flow_with_cookie; Sample.flow]
              (Sample.started "out.har")))
    = Ok (log',
          [] ++ omap (fun flow => appended_entry (H := Sample.library) flow
                                    (Sample.started "out.har"))
                  [Sample.flow; Sample.flow_with_cookie; Sample.flow]) /\
    length (omap (fun flow => appended_entry (H := Sample.library) flow
                                (Sample.started "out.har"))
              [Sample.flow; Sample.flow_with_cookie; Sample.flow]) = 2%nat.
Proof.
  destruct (log_entries_initial (H := Sample.library) ∅) as (log & _ & Hlog).
  change (log_entries (HAR (Sample.started "out.har")) = Ok (log, [])) in Hlog.
  destruct (responses_record_in_call_order (H := Sample.library)
              [Sample.flow; Sample.flow_with_cookie; Sample.flow]
              (Sample.started "out.har") log [] Hlog)
    as (log' & Hentries & _).
  exists log, log'. split; [exact Hlog|]. split; [exact Hentries|].
  vm_compute. reflexivity.
Defined.

Lemma document_after_responses_witness :
  files (responses (H := Sample.library) [Sample.flow; Sample.flow]
           (snd (start (H := Sample.library) (Sample.loaded ["har_dump.py"; "out.har"]))))
  = {[ "old.har" := "stale" ]} /\
  events (responses (H := Sample.library) [Sample.flow; Sample.flow]
            (snd (start (H := Sample.library) (Sample.loaded ["har_dump.py"; "out.har"]))))
  = [].
Proof.
  exact (proj2 (document_after_responses (H := Sample.library)
                  [Sample.flow; Sample.flow]
                  (Sample.loaded ["har_dump.py"; "out.har"]) eq_refl eq_refl)).
Defined.

Lemma start_discards_entries_witness :
  snd (start (H := Sample.library)
         (responses (H := Sample.library) [Sample.flow; Sample.flow]
            (snd (start (H := Sample.library)
                    (Sample.loaded ["har_dump.py"; "out.har"])))))
  = snd (start (H := Sample.library) (Sample.loaded ["har_dump.py"; "out.har"])).
Proof.
  exact (start_discards_entries (H := Sample.library) [Sample.flow; Sample.flow]
           (Sample.loaded ["har_dump.py"; "out.har"]) eq_refl).
Defined.

Lemma done_touches_only_destination_witness :
  HAR (snd (done (H := Sample.library) (Sample.started "out.har")))
  = HAR (Sample.started "out.har") /\
  files (snd (done (H := Sample.library) (Sample.started "out.har"))) !! "old.har"
  = Some "stale".
Proof.
  destruct (done_touches_only_destination (H := Sample.library)
              (Sample.started "out.har"))
    as (Hdoc & _ & Hfiles & _).
  split; [exact Hdoc|]. apply (Hfiles "old.har"). discriminate.
Defined.

Lemma done_dumps_raises_witness :
  fst (done (H := Sample.library_dumps_raises) (Sample.started "old.har"))
  = Raise (TypeError "is not JSON serializable") /\
  files (snd (done (H := Sample.library_dumps_raises) (Sample.started "old.har")))
    !! "old.har" = Some "" /\
  new_events (Sample.started "old.har")
    (snd (done (H := Sample.library_dumps_raises) (Sample.started "old.har")))
  = [EvOpen "old.har"; EvClose "old.har"].
Proof.
  assert (Hne : "old.har" <> "-") by discriminate.
  assert (Hw : "old.har" ∉ unwritable (Sample.started "old.har"))
    by apply not_elem_of_empty.
  exact (done_dumps_raises (H := Sample.library_dumps_raises)
           (Sample.started "old.har") "old.har" _ eq_refl Hne Hw eq_refl).
Defined.

Lemma run_writes_recorded_document_witness :
  fst (done (H := Sample.library)
         (responses (H := Sample.library) [Sample.flow; Sample.flow_with_cookie]
            (snd (start (H := Sample.library)
                    (Sample.loaded ["har_dump.py"; "old.har"])))))
  = Ok tt /\
  files (snd (done (H := Sample.library)
                (responses (H := Sample.library) [Sample.flow; Sample.flow_with_cookie]
                   (snd (start (H := Sample.library)
                           (Sample.loaded ["har_dump.py"; "old.har"]))))))
  = <["old.har" := "{...}"]> {[ "old.har" := "stale" ]} /\
  new_events (Sample.loaded ["har_dump.py"; "old.har"])
    (snd (done (H := Sample.library)
            (responses (H := Sample.library) [Sample.flow; Sample.flow_with_cookie]
               (snd (start (H := Sample.library)
                       (Sample.loaded ["har_dump.py"; "old.har"]))))))
  = [EvOpen "old.har"; EvWrite "old.har" "{...}"; EvClose "old.har"].
Proof.
  assert (Hne : "old.har" <> "-") by discriminate.
  assert (Hw : "old.har" ∉ unwritable (Sample.loaded ["har_dump.py"; "old.har"]))
    by apply not_elem_of_empty.
  exact (run_writes_recorded_document (H := Sample.library)
           [Sample.flow; Sample.flow_with_cookie]
           (Sample.loaded ["har_dump.py"; "old.har"])
           "har_dump.py" "old.har" "{...}" eq_refl eq_refl Hne Hw eq_refl).
Defined.
